(** * Account Service: a shallow embedding of [service/routes.py]

    The five resource handlers of the account microservice, the content-type
    check they share, and the parts of the service they call
    ([service.models.Account], [service.common.status], the error handlers),
    followed by the properties of the specification that concern them.

    A handler is a computation in a small state-and-error monad: the state is
    the accounts relation, an error is either a Flask [abort] or a raised
    exception. *)

From Stdlib Require Import ZArith String Ascii List Bool Lia DecimalString
  Permutation.
Import ListNotations.

Local Open Scope string_scope.
Local Open Scope Z_scope.

Set Warnings "-register-all".

(* ------------------------------------------------------------------ *)
(** * JSON values and Python dictionaries *)

(** What [request.get_json()] yields and what [jsonify] consumes.  [JNull]
    is Python's [None]; a [JObj] is a [dict], searched from the front. *)
Inductive json : Type :=
| JNull
| JBool (b : bool)
| JNum (n : Z)
| JStr (s : string)
| JArr (items : list json)
| JObj (fields : list (string * json)).

Definition dict := list (string * json).

Fixpoint dict_get (key : string) (d : dict) : option json :=
  match d with
  | [] => None
  | (k, v) :: rest => if (k =? key)%string then Some v else dict_get key rest
  end.

(** [str(n)] for a Python integer. *)
Definition str_of_int (n : Z) : string := NilZero.string_of_int (Z.to_int n).

(* ------------------------------------------------------------------ *)
(** * HTTP status codes *)

(** Modelled from the spec: [service.common.status], the table of HTTP status
    codes the handlers name; the numbers are those of sections 4.2 and 4.3. *)
Module status.
Definition HTTP_200_OK : Z := 200.
Definition HTTP_201_CREATED : Z := 201.
Definition HTTP_204_NO_CONTENT : Z := 204.
Definition HTTP_400_BAD_REQUEST : Z := 400.
Definition HTTP_404_NOT_FOUND : Z := 404.
Definition HTTP_405_METHOD_NOT_ALLOWED : Z := 405.
Definition HTTP_415_UNSUPPORTED_MEDIA_TYPE : Z := 415.
Definition HTTP_500_INTERNAL_SERVER_ERROR : Z := 500.
End status.

(* ------------------------------------------------------------------ *)
(** * Requests, responses and the handler monad *)

(** The part of Flask's [request] the handlers read: [content_type] is
    [request.headers.get("Content-Type")] ([None] when the header is absent),
    [get_json] the body parsed as JSON, which is what [request.get_json()]
    returns when the media type of the request is JSON ([request_get_json]
    below is the call itself). *)
Record Request : Type := mkRequest {
  content_type : option string;
  get_json : json
}.

(** Werkzeug's [Request.mimetype]: the header up to its first [;], without
    the blanks around it, in lower case. *)
Definition is_blank (c : ascii) : bool :=
  (c =? " ")%char || (c =? "009")%char.

Definition lower (c : ascii) : ascii :=
  let n := nat_of_ascii c in
  if ((65 <=? n) && (n <=? 90))%nat then ascii_of_nat (n + 32) else c.

Fixpoint before_semicolon (s : string) : string :=
  match s with
  | EmptyString => EmptyString
  | String c s' => if (c =? ";")%char then EmptyString
                   else String c (before_semicolon s')
  end.

Fixpoint lstrip (s : string) : string :=
  match s with
  | EmptyString => EmptyString
  | String c s' => if is_blank c then lstrip s' else s
  end.

Fixpoint rstrip (s : string) : string :=
  match s with
  | EmptyString => EmptyString
  | String c s' =>
      match rstrip s' with
      | EmptyString => if is_blank c then EmptyString else String c EmptyString
      | rest => String c rest
      end
  end.

Fixpoint lowercase (s : string) : string :=
  match s with
  | EmptyString => EmptyString
  | String c s' => String (lower c) (lowercase s')
  end.

Definition mimetype (header : option string) : string :=
  match header with
  | Some value => lowercase (rstrip (lstrip (before_semicolon value)))
  | None => ""
  end.

Definition ends_with (suffix s : string) : bool :=
  (String.length suffix <=? String.length s)%nat
  && (substring (String.length s - String.length suffix)
                (String.length suffix) s =? suffix)%string.

(** Werkzeug's [Request.is_json]: the media type is [application/json] or
    [application/*+json]. *)
Definition is_json (header : option string) : bool :=
  let mt := mimetype header in
  (mt =? "application/json")%string
  || (String.prefix "application/" mt && ends_with "+json" mt).

(** What [request.get_json()] does when the media type is not JSON; it
    changed with Werkzeug: before 2.1 the call returns [None], in 2.1 and 2.2
    it aborts with 400, from 2.3 on with 415. *)
Inductive NonJson : Type :=
| ReturnsNone
| Aborts400
| Aborts415.

Inductive Body : Type :=
| Json (j : json)
| Text (s : string).

Record Response : Type := make_response {
  body : Body;
  status_code : Z;
  headers : list (string * string)
}.

Definition jsonify (j : json) : Body := Json j.

(** The exceptions of section 7 that are raised rather than aborted. *)
Inductive exn : Type :=
| ValidationError (attribute : string)
| PersistenceError.

Inductive outcome (A : Type) : Type :=
| Return (a : A)
| Abort (code : Z) (description : string)
| Raise (e : exn).

Arguments Return {A} a.
Arguments Abort {A} code description.
Arguments Raise {A} e.

Section Monad.
Context {World : Type}.

Definition M (A : Type) : Type := World -> outcome A * World.

Definition ret {A} (a : A) : M A := fun w => (Return a, w).

Definition bind {A B} (m : M A) (k : A -> M B) : M B :=
  fun w =>
    match m w with
    | (Return a, w') => k a w'
    | (Abort code description, w') => (Abort code description, w')
    | (Raise e, w') => (Raise e, w')
    end.

(** [flask.abort(code, description)] *)
Definition abort {A} (code : Z) (description : string) : M A :=
  fun w => (Abort code description, w).

Definition raise {A} (e : exn) : M A := fun w => (Raise e, w).

Definition gets {A} (f : World -> A) : M A := fun w => (Return (f w), w).
End Monad.

Arguments M : clear implicits.

Notation "x <- m ;; k" := (bind m (fun x => k))
  (at level 61, m at next level, right associativity).
Notation "m ;; k" := (bind m (fun _ => k))
  (at level 61, right associativity).

(* ------------------------------------------------------------------ *)
(** * The Account entity and its persistence *)

Module Account.

(** Modelled from the spec: the [Account] class of [service.models]
    (section 3).  [id] is [None] until persistence assigns it; the other
    attributes hold whatever the untyped payload carried. *)
Record t : Type := mk {
  id : option Z;
  name : json;
  email : json;
  address : json;
  phone_number : json;
  date_joined : json
}.

(** What a request finds: the accounts relation, the sequence its keys come
    from, the calendar date [deserialize] and [create] read, and the
    Werkzeug the service runs on. *)
Record World : Type := mkWorld {
  accounts : list t;
  next_id : Z;
  today : string;
  non_json : NonJson
}.

(** [Account()] *)
Definition new : t := mk None JNull JNull JNull JNull JNull.

Definition has_id (i : Z) (a : t) : bool :=
  match id a with
  | Some j => i =? j
  | None => false
  end.

(** Modelled from the spec: [Account.serialize] (sections 3 and 4.1), the
    flat object with exactly the six attributes. *)
Definition serialize (self : t) : json :=
  JObj [ ("id", match id self with Some i => JNum i | None => JNull end);
         ("name", name self);
         ("email", email self);
         ("address", address self);
         ("phone_number", phone_number self);
         ("date_joined", date_joined self) ].

Definition required (key : string) (d : dict) : M World json :=
  match dict_get key d with
  | Some v => ret v
  | None => raise (ValidationError key)
  end.

(** Modelled from the spec: [Account.deserialize] (section 4.1).  It
    populates the five attributes from a mapping, leaves [id] alone, fails
    on the first required key that is missing and on a payload that is no
    mapping; [phone_number] is optional and [date_joined] defaults to the
    current date. *)
Definition deserialize (self : t) (data : json) : M World t :=
  match data with
  | JObj d =>
      n <- required "name" d ;;
      e <- required "email" d ;;
      a <- required "address" d ;;
      now <- gets today ;;
      ret (mk (id self) n e a
             (match dict_get "phone_number" d with Some p => p | None => JNull end)
             (match dict_get "date_joined" d with Some j => j | None => JStr now end))
  | _ => raise (ValidationError "payload")
  end.

(** Modelled from the spec: [Account.create] (section 4.1).  Persistence
    assigns a fresh [id], and [date_joined] when it is still unset, and
    appends the record. *)
Definition create (self : t) : M World t :=
  fun w =>
    let self' := mk (Some (next_id w)) (name self) (email self) (address self)
                    (phone_number self)
                    (match date_joined self with
                     | JNull => JStr (today w)
                     | j => j
                     end) in
    (Return self',
     mkWorld (accounts w ++ [self'])%list (next_id w + 1) (today w) (non_json w)).

(** Modelled from the spec: [Account.update] (section 4.1).  It persists the
    entity over the record its [id] names and fails when that record is gone.
    An entity whose [id] was never assigned names no record: nothing is
    written, and nothing fails ([test_update_account] gets its 200 from
    such an entity). *)
Definition update (self : t) : M World t :=
  fun w =>
    match id self with
    | None => (Return self, w)
    | Some i =>
        if existsb (has_id i) (accounts w)
        then (Return self,
              mkWorld (map (fun a => if has_id i a then self else a) (accounts w))
                      (next_id w) (today w) (non_json w))
        else (Raise PersistenceError, w)
    end.

(** Modelled from the spec: [Account.delete] (section 4.1), which removes
    the record and is safe when it is already absent. *)
Definition delete (self : t) : M World unit :=
  fun w =>
    match id self with
    | None => (Return tt, w)
    | Some i =>
        (Return tt,
         mkWorld (filter (fun a => negb (has_id i a)) (accounts w))
                 (next_id w) (today w) (non_json w))
    end.

(** Modelled from the spec: [Account.find] (section 4.1), an optional
    entity. *)
Definition find (by_id : Z) : M World (option t) :=
  gets (fun w => List.find (has_id by_id) (accounts w)).

(** Modelled from the spec: [Account.all] (section 4.1), every record in
    insertion order. *)
Definition all : M World (list t) := gets accounts.

End Account.

Definition World : Type := Account.World.
Definition Handler : Type := M World Response.

(* ------------------------------------------------------------------ *)
(** * service/routes.py *)

(** [health()] *)
Definition health (request : Request) : Handler :=
  ret (make_response (jsonify (JObj [("status", JStr "OK")]))
         status.HTTP_200_OK []).

(** [index()] *)
Definition index (request : Request) : Handler :=
  ret (make_response
         (jsonify (JObj [ ("name", JStr "Account REST API Service");
                          ("version", JStr "1.0") ]))
         status.HTTP_200_OK []).

(** Python's truth value of [request.headers.get(...)]: [None] and the empty
    string are false. *)
Definition truthy (s : option string) : bool :=
  match s with
  | Some s => negb (s =? "")%string
  | None => false
  end.

Definition str_eq (s : option string) (t : string) : bool :=
  match s with
  | Some s => (s =? t)%string
  | None => false
  end.

(** [check_content_type(media_type)] *)
Definition check_content_type (media_type : string) (request : Request)
  : M World unit :=
  let content_type := content_type request in
  if truthy content_type && str_eq content_type media_type
  then ret tt
  else abort status.HTTP_415_UNSUPPORTED_MEDIA_TYPE
             ("Content-Type must be " ++ media_type).

(** [request.get_json()]: the parsed body when the media type is JSON,
    otherwise what the installed Werkzeug does. *)
Definition request_get_json (request : Request) : M World json :=
  if is_json (content_type request) then ret (get_json request)
  else
    non_json <- gets Account.non_json ;;
    match non_json with
    | ReturnsNone => ret JNull
    | Aborts400 =>
        abort status.HTTP_400_BAD_REQUEST
              "The browser (or proxy) sent a request that this server could not understand."
    | Aborts415 =>
        abort status.HTTP_415_UNSUPPORTED_MEDIA_TYPE
              "Did not attempt to load JSON data because the request Content-Type was not 'application/json'."
    end.

(** [create_accounts()] *)
Definition create_accounts (request : Request) : Handler :=
  check_content_type "application/json" request ;;
  let account := Account.new in
  data <- request_get_json request ;;
  account <- Account.deserialize account data ;;
  account <- Account.create account ;;
  let message := Account.serialize account in
  let location_url := "/" in
  ret (make_response (jsonify message) status.HTTP_201_CREATED
         [("Location", location_url)]).

(** [list_all_accounts()] *)
Definition list_all_accounts (request : Request) : Handler :=
  result <- Account.all ;;
  let accounts := [] in
  match result with
  | [] => ret (make_response (jsonify (JArr accounts)) status.HTTP_200_OK [])
  | _ =>
      let accounts :=
        fold_left
          (fun accounts account => (accounts ++ [Account.serialize account])%list)
          result accounts in
      ret (make_response (jsonify (JArr accounts)) status.HTTP_200_OK [])
  end.

Definition not_found (i : Z) : string :=
  "Account id [" ++ str_of_int i ++ "] could not be found".

(** [read_an_account(acc_id)] *)
Definition read_an_account (acc_id : Z) (request : Request) : Handler :=
  result <- Account.find acc_id ;;
  match result with
  | None => abort status.HTTP_404_NOT_FOUND (not_found acc_id)
  | Some result =>
      ret (make_response (Json (Account.serialize result)) status.HTTP_200_OK [])
  end.

(** [update_account(account_id)] *)
Definition update_account (account_id : Z) (request : Request) : Handler :=
  result <- Account.find account_id ;;
  match result with
  | None => abort status.HTTP_404_NOT_FOUND (not_found account_id)
  | Some _ =>
      let account := Account.new in
      data <- request_get_json request ;;
      account <- Account.deserialize account data ;;
      account <- Account.update account ;;
      ret (make_response (Json (Account.serialize account)) status.HTTP_200_OK [])
  end.

(** [delete_account(account_id)] *)
Definition delete_account (account_id : Z) (request : Request) : Handler :=
  result <- Account.find account_id ;;
  match result with
  | None => abort status.HTTP_404_NOT_FOUND (not_found account_id)
  | Some result =>
      Account.delete result ;;
      let result_return := "" in
      ret (make_response (Text result_return) status.HTTP_204_NO_CONTENT [])
  end.

(** The canonical URL of an account, after the route of [read_an_account]
    ([/accounts/<int:acc_id>]). *)
Definition account_url (i : Z) : string := "/accounts/" ++ str_of_int i.

(* ------------------------------------------------------------------ *)
(** * The URL map *)

(** The request methods a client sends.  (HEAD and OPTIONS, which Flask
    answers by itself, are left out.) *)
Inductive Method : Type := GET | POST | PUT | DELETE | PATCH.

Definition Method_eqb (m m' : Method) : bool :=
  match m, m' with
  | GET, GET | POST, POST | PUT, PUT | DELETE, DELETE | PATCH, PATCH => true
  | _, _ => false
  end.

(** A request path after matching against the rules: [/], [/health],
    [/accounts], [/accounts/<int>] (the [int] converter takes unsigned
    digits only), or a path that matches no rule. *)
Inductive Path : Type :=
| Root
| Health
| Accounts
| Accounts_id (account_id : N)
| Unmatched.

(** The [@app.route] decorators: for each rule, its methods and views, in
    the order of the file. *)
Definition url_map (path : Path) : list (Method * (Request -> Handler)) :=
  match path with
  | Health => [ (GET, health) ]
  | Root => [ (GET, index) ]
  | Accounts => [ (POST, create_accounts); (GET, list_all_accounts) ]
  | Accounts_id i =>
      [ (GET, read_an_account (Z.of_N i));
        (PUT, update_account (Z.of_N i));
        (DELETE, delete_account (Z.of_N i)) ]
  | Unmatched => []
  end.

(** Flask's dispatch over the map: no rule for the path is a 404, a rule
    but none for the method a 405. *)
Definition dispatch (method : Method) (path : Path) (request : Request) : Handler :=
  match url_map path with
  | [] =>
      abort status.HTTP_404_NOT_FOUND
            "The requested URL was not found on the server."
  | rules =>
      match List.find (fun rule => Method_eqb (fst rule) method) rules with
      | Some (_, view) => view request
      | None =>
          abort status.HTTP_405_METHOD_NOT_ALLOWED
                "The method is not allowed for the requested URL."
      end
  end.

(* ------------------------------------------------------------------ *)
(** * Error handlers *)

Definition reason_phrase (code : Z) : string :=
  if code =? status.HTTP_400_BAD_REQUEST then "Bad Request"
  else if code =? status.HTTP_404_NOT_FOUND then "Not Found"
  else if code =? status.HTTP_405_METHOD_NOT_ALLOWED then "Method not Allowed"
  else if code =? status.HTTP_415_UNSUPPORTED_MEDIA_TYPE then "Unsupported media type"
  else "Internal Server Error".

Definition error_response (code : Z) (message : string) : Response :=
  make_response
    (jsonify (JObj [ ("status", JNum code);
                     ("error", JStr (reason_phrase code));
                     ("message", JStr message) ]))
    code [].

(** Modelled from the spec: the Error/Status Mapper of section 4.3
    ([service.common.error_handlers]).  An abort keeps its status, a
    validation failure is a 400, any other exception a 500, all with the one
    JSON shape. *)
Definition error_handlers (o : outcome Response) : Response :=
  match o with
  | Return response => response
  | Abort code description => error_response code description
  | Raise (ValidationError attribute) =>
      error_response status.HTTP_400_BAD_REQUEST
                     ("Invalid Account: missing " ++ attribute)
  | Raise PersistenceError =>
      error_response status.HTTP_500_INTERNAL_SERVER_ERROR "Internal Server Error"
  end.

(** One request served: the handler runs, the mapper turns its outcome into
    the response that leaves the service. *)
Definition serve (handler : Handler) (w : World) : Response * World :=
  let (o, w') := handler w in (error_handlers o, w').

(* ------------------------------------------------------------------ *)
(** * Example data *)

Definition json_media_type : string := "application/json".

Definition ann : json :=
  JObj [ ("name", JStr "Ann"); ("email", JStr "a@x.com");
         ("address", JStr "1 Main St") ].

Definition ann_moved : json :=
  JObj [ ("name", JStr "Ann"); ("email", JStr "b@x.com");
         ("address", JStr "1 Main St") ].

Definition post (data : json) : Request := mkRequest (Some json_media_type) data.

Definition empty_world : World := Account.mkWorld [] 1 "2024-05-17" Aborts415.

(** The world after Ann's account was created in [empty_world]. *)
Definition ann_world : World := snd (create_accounts (post ann) empty_world).

(* ------------------------------------------------------------------ *)
(** * Vocabulary of the properties *)

(** The payload is a mapping that carries [key]. *)
Definition has_key (key : string) (data : json) : bool :=
  match data with
  | JObj d => match dict_get key d with Some _ => true | None => false end
  | _ => false
  end.

(** A valid payload carries the three required attributes (section 3). *)
Definition valid_payload (data : json) : bool :=
  has_key "name" data && has_key "email" data && has_key "address" data.

(** The attribute [key] as the payload gives it, [None] being an absent
    optional attribute. *)
Definition payload_get (key : string) (data : json) : json :=
  match data with
  | JObj d => match dict_get key d with Some v => v | None => JNull end
  | _ => JNull
  end.

(** A record with this id is stored. *)
Definition stored (account_id : Z) (w : World) : Prop :=
  exists a, In a (Account.accounts w) /\ Account.id a = Some account_id.

(** [posted w n w']: [n] POSTs to [/accounts], each answered 201 Created,
    lead from [w] to [w']. *)
Inductive posted : World -> nat -> World -> Prop :=
| posted_none w : posted w 0 w
| posted_more w n w' request response w'' :
    posted w n w' ->
    serve (create_accounts request) w' = (response, w'') ->
    status_code response = status.HTTP_201_CREATED ->
    posted w (S n) w''.

(** The method is among those of the rules of the path. *)
Definition allowed (method : Method) (path : Path) : bool :=
  existsb (fun rule => Method_eqb (fst rule) method) (url_map path).

(** The test client: one request through the URL map and the error
    handlers.  [json] is the body, [content_type] the header sent with it. *)
Definition client (method : Method) (path : Path)
           (json : json) (content_type : option string) (w : World)
  : Response * World :=
  serve (dispatch method path (mkRequest content_type json)) w.

(** [response.get_json()] *)
Definition response_get_json (response : Response) : json :=
  match body response with
  | Json j => j
  | Text _ => JNull
  end.

(** An id as a JSON value carries it. *)
Definition as_id (v : json) : option Z :=
  match v with
  | JNum i => Some i
  | _ => None
  end.

Definition set_id (i : option Z) (a : Account.t) : Account.t :=
  Account.mk i (Account.name a) (Account.email a) (Account.address a)
             (Account.phone_number a) (Account.date_joined a).

(** [TestAccountService._create_accounts(count)] of [tests/test_routes.py].
    [factory] lists what the [count] calls of [AccountFactory()] return;
    [None] is a failed assertion (or a response without an [id]). *)
Fixpoint _create_accounts (factory : list Account.t) (w : World)
  : option (list Account.t) * World :=
  match factory with
  | [] => (Some [], w)
  | account :: factory' =>
      let (response, w') :=
        client POST Accounts (Account.serialize account) (Some "application/json") w in
      if status_code response =? status.HTTP_201_CREATED then
        match response_get_json response with
        | JObj new_account =>
            match dict_get "id" new_account with
            | Some v =>
                let account := set_id (as_id v) account in
                match _create_accounts factory' w' with
                | (Some accounts, w'') => (Some (account :: accounts), w'')
                | (None, w'') => (None, w'')
                end
            | None => (None, w')
            end
        | _ => (None, w')
        end
      else (None, w')
  end.

(** The accounts relation as a table with a primary key: every record has
    an id, no two records share one, and every id is below the next one the
    sequence gives out. *)
Definition well_formed (w : World) : Prop :=
  NoDup (map Account.id (Account.accounts w)) /\
  forall a, In a (Account.accounts w) ->
            exists i, Account.id a = Some i /\ i < Account.next_id w.

(** The ids [first], [first + 1], ... of [n] records created in a row. *)
Fixpoint ids_from (first : Z) (n : nat) : list (option Z) :=
  match n with
  | O => []
  | S n => Some first :: ids_from (first + 1) n
  end.

(* ------------------------------------------------------------------ *)
(** * Lemmas on the persistence operations *)

Lemma find_absent (i : Z) (l : list Account.t) :
  List.find (Account.has_id i) l = None <->
  forall a, In a l -> Account.id a <> Some i.
Proof.
  induction l as [|b l IH]; simpl.
  - split; [intros _ a [] | reflexivity].
  - unfold Account.has_id at 1.
    destruct (Account.id b) as [j|] eqn:Hb.
    + destruct (Z.eqb_spec i j) as [->|Hij].
      * split; [discriminate|]. intros H. exfalso. apply (H b); auto.
      * rewrite IH. split.
        -- intros H a [<-|Ha]; [congruence | auto].
        -- intros H a Ha. apply H. auto.
    + rewrite IH. split.
      * intros H a [<-|Ha]; [congruence | auto].
      * intros H a Ha. apply H. auto.
Qed.

Lemma find_stored (i : Z) (l : list Account.t) :
  (exists a, In a l /\ Account.id a = Some i) ->
  exists a, List.find (Account.has_id i) l = Some a /\ Account.id a = Some i.
Proof.
  intros (a & Ha & Hid).
  destruct (List.find (Account.has_id i) l) as [b|] eqn:Hf.
  - exists b. split; [reflexivity|].
    apply find_some in Hf. destruct Hf as [_ Hb].
    unfold Account.has_id in Hb.
    destruct (Account.id b) as [j|]; [|discriminate].
    apply Z.eqb_eq in Hb. congruence.
  - exfalso. apply (proj1 (find_absent i l) Hf a Ha Hid).
Qed.

Lemma find_after_delete (i : Z) (l : list Account.t) :
  List.find (Account.has_id i)
            (filter (fun a => negb (Account.has_id i a)) l) = None.
Proof.
  induction l as [|b l IH]; simpl; [reflexivity|].
  destruct (Account.has_id i b) eqn:Hb; simpl; [assumption|].
  rewrite Hb. assumption.
Qed.

Lemma fold_serialize (l : list Account.t) (acc : list json) :
  fold_left (fun accounts account => (accounts ++ [Account.serialize account])%list)
            l acc
  = (acc ++ map Account.serialize l)%list.
Proof.
  revert acc. induction l as [|a l IH]; intros acc; simpl.
  - now rewrite app_nil_r.
  - rewrite IH, <- app_assoc. reflexivity.
Qed.

(** [deserialize] on a valid payload: the entity it builds, in an unchanged
    world. *)
Lemma deserialize_valid (self : Account.t) (data : json) (w : World) :
  valid_payload data = true ->
  Account.deserialize self data w =
    (Return (Account.mk (Account.id self)
               (payload_get "name" data) (payload_get "email" data)
               (payload_get "address" data) (payload_get "phone_number" data)
               (match payload_get "date_joined" data, has_key "date_joined" data with
                | j, true => j
                | _, false => JStr (Account.today w)
                end)), w).
Proof.
  unfold valid_payload, has_key, payload_get.
  destruct data as [| | | | |d]; try discriminate.
  intros H. apply andb_prop in H as [H Ha]. apply andb_prop in H as [Hn He].
  unfold Account.deserialize, Account.required, bind, ret, gets.
  destruct (dict_get "name" d); [|discriminate].
  destruct (dict_get "email" d); [|discriminate].
  destruct (dict_get "address" d); [|discriminate].
  simpl. destruct (dict_get "date_joined" d); reflexivity.
Qed.

(** [deserialize] on any other payload: a validation error, in an unchanged
    world. *)
Lemma deserialize_invalid (self : Account.t) (data : json) (w : World) :
  valid_payload data = false ->
  exists attribute,
    Account.deserialize self data w = (Raise (ValidationError attribute), w).
Proof.
  unfold valid_payload, has_key.
  destruct data as [| | | | |d]; intros H;
    try (eexists; reflexivity).
  unfold Account.deserialize, Account.required, bind, ret, raise, gets.
  destruct (dict_get "name" d); [|eexists; reflexivity].
  destruct (dict_get "email" d); [|eexists; reflexivity].
  destruct (dict_get "address" d); [|eexists; reflexivity].
  discriminate.
Qed.

Lemma check_content_type_spec (media_type : string) (request : Request) (w : World) :
  check_content_type media_type request w =
    if truthy (content_type request) && str_eq (content_type request) media_type
    then (Return tt, w)
    else (Abort status.HTTP_415_UNSUPPORTED_MEDIA_TYPE
                ("Content-Type must be " ++ media_type), w).
Proof.
  unfold check_content_type.
  destruct (truthy (content_type request) && str_eq (content_type request) media_type);
    reflexivity.
Qed.

Lemma accepted_header (media_type : string) (header : option string) :
  media_type <> "" ->
  truthy header && str_eq header media_type = true <-> header = Some media_type.
Proof.
  intros Hne. destruct header as [s|]; simpl.
  - destruct (String.eqb_spec s media_type) as [->|Hs].
    + rewrite andb_true_r. apply String.eqb_neq in Hne. rewrite Hne. now split.
    + rewrite andb_false_r. split; [discriminate | congruence].
  - split; discriminate.
Qed.

(* ------------------------------------------------------------------ *)
(** * The content-type check *)

(** C10: the check passes exactly when the Content-Type header is, character
    for character, the expected media type; a parameterized variant, a
    difference of case, the empty header and the absent header are each
    aborted with 415. *)
Theorem check_content_type_exact (media_type : string) (request : Request) (w : World) :
  media_type <> "" ->
  (check_content_type media_type request w = (Return tt, w) <->
   content_type request = Some media_type) /\
  (content_type request <> Some media_type ->
   check_content_type media_type request w =
     (Abort status.HTTP_415_UNSUPPORTED_MEDIA_TYPE
            ("Content-Type must be " ++ media_type), w)) /\
  (forall header data,
     In header [ Some "application/json; charset=utf-8"; Some "Application/JSON";
                 Some "application/json "; Some ""; None ] ->
     serve (create_accounts (mkRequest header data)) w =
       (error_response status.HTTP_415_UNSUPPORTED_MEDIA_TYPE
                       "Content-Type must be application/json", w)).
Proof.
  intros Hne. pose proof (accepted_header media_type (content_type request) Hne) as Hacc.
  rewrite check_content_type_spec.
  destruct (truthy (content_type request) && str_eq (content_type request) media_type).
  - split; [|split].
    + split; [intros _; now apply Hacc | reflexivity].
    + intros Hc. exfalso. apply Hc. now apply Hacc.
    + intros header data Hin. simpl in Hin.
      repeat (destruct Hin as [<-|Hin]; [reflexivity|]). destruct Hin.
  - split; [|split].
    + split; [discriminate|]. intros Hc. apply Hacc in Hc. discriminate.
    + reflexivity.
    + intros header data Hin. simpl in Hin.
      repeat (destruct Hin as [<-|Hin]; [reflexivity|]). destruct Hin.
Qed.

Lemma check_content_type_exact_witness :
  json_media_type <> "" /\
  check_content_type json_media_type (post ann) empty_world
    = (Return tt, empty_world) /\
  status_code
    (fst (serve (create_accounts
                   (mkRequest (Some "application/json; charset=utf-8") ann))
                empty_world)) = 415.
Proof.
  assert (json_media_type <> "") as Hne by discriminate.
  destruct (check_content_type_exact json_media_type (post ann) empty_world Hne)
    as (Hexact & _ & Hvariants).
  split; [exact Hne|]. split.
  - apply Hexact. reflexivity.
  - rewrite (Hvariants (Some "application/json; charset=utf-8") ann
               (or_introl eq_refl)).
    reflexivity.
Defined.

(** C3: a POST to [/accounts] whose Content-Type header is absent, or is
    anything but [application/json], is answered 415 whatever its body, and
    nothing is stored; with the header equal to [application/json] the check
    passes. *)
Theorem create_accounts_unsupported_media_type (request : Request) (w : World) :
  content_type request <> Some "application/json" ->
  serve (create_accounts request) w =
    (error_response status.HTTP_415_UNSUPPORTED_MEDIA_TYPE
                    "Content-Type must be application/json", w) /\
  (forall data,
     check_content_type "application/json" (mkRequest (Some "application/json") data) w
     = (Return tt, w)).
Proof.
  intros Hc. split; [|reflexivity].
  unfold serve, create_accounts, bind.
  rewrite check_content_type_spec.
  destruct (truthy (content_type request)
            && str_eq (content_type request) "application/json") eqn:Hacc.
  - apply accepted_header in Hacc; [contradiction | discriminate].
  - reflexivity.
Qed.

Lemma create_accounts_unsupported_media_type_witness :
  Some "text/html" <> Some "application/json" /\
  status_code (fst (serve (create_accounts (mkRequest (Some "text/html") ann))
                          empty_world)) = 415.
Proof.
  split; [discriminate|].
  rewrite (proj1 (create_accounts_unsupported_media_type
                    (mkRequest (Some "text/html") ann) empty_world
                    ltac:(discriminate))).
  reflexivity.
Defined.

(* ------------------------------------------------------------------ *)
(** * Update *)

(** [request.get_json()], case by case; it never writes. *)
Lemma request_get_json_cases (request : Request) (w : World) :
  request_get_json request w =
    if is_json (content_type request) then (Return (get_json request), w)
    else match Account.non_json w with
         | ReturnsNone => (Return JNull, w)
         | Aborts400 =>
             (Abort status.HTTP_400_BAD_REQUEST
                    "The browser (or proxy) sent a request that this server could not understand.",
              w)
         | Aborts415 =>
             (Abort status.HTTP_415_UNSUPPORTED_MEDIA_TYPE
                    "Did not attempt to load JSON data because the request Content-Type was not 'application/json'.",
              w)
         end.
Proof.
  unfold request_get_json.
  destruct (is_json (content_type request)); [reflexivity|].
  unfold bind, gets. destruct (Account.non_json w); reflexivity.
Qed.

Lemma request_get_json_world (request : Request) (w : World) :
  snd (request_get_json request w) = w.
Proof.
  rewrite request_get_json_cases.
  destruct (is_json (content_type request)); [reflexivity|].
  destruct (Account.non_json w); reflexivity.
Qed.

Lemma request_get_json_exact (request : Request) (w : World) :
  content_type request = Some "application/json" ->
  request_get_json request w = (Return (get_json request), w).
Proof.
  intros Hc. rewrite request_get_json_cases, Hc. reflexivity.
Qed.

(** [deserialize] never writes. *)
Lemma deserialize_world (self : Account.t) (data : json) (w : World) :
  snd (Account.deserialize self data w) = w.
Proof.
  destruct (valid_payload data) eqn:Hv.
  - rewrite deserialize_valid by assumption. reflexivity.
  - destruct (deserialize_invalid self data w Hv) as [k ->]. reflexivity.
Qed.

(** [deserialize] leaves [id] as it found it. *)
Lemma deserialize_id (self account : Account.t) (data : json) (w w' : World) :
  Account.deserialize self data w = (Return account, w') ->
  Account.id account = Account.id self.
Proof.
  destruct (valid_payload data) eqn:Hv.
  - rewrite deserialize_valid by assumption. intros H. inversion H. reflexivity.
  - destruct (deserialize_invalid self data w Hv) as [k ->]. discriminate.
Qed.

(** What [update_account] comes to: the existence check, then the body as
    [request.get_json()] gives it, then the entity built from the body
    alone.  The entity is a fresh [Account()], so its [id] is unset when
    [update] is called on it. *)
Lemma update_account_cases (account_id : Z) (request : Request) (w : World) :
  update_account account_id request w =
    match List.find (Account.has_id account_id) (Account.accounts w) with
    | None => (Abort status.HTTP_404_NOT_FOUND (not_found account_id), w)
    | Some _ =>
        match request_get_json request w with
        | (Return data, _) =>
            match Account.deserialize Account.new data w with
            | (Return account, _) =>
                (Return (make_response (Json (Account.serialize account))
                                       status.HTTP_200_OK []), w)
            | (Abort code description, _) => (Abort code description, w)
            | (Raise e, _) => (Raise e, w)
            end
        | (Abort code description, _) => (Abort code description, w)
        | (Raise e, _) => (Raise e, w)
        end
    end.
Proof.
  unfold update_account, bind at 1, Account.find, gets.
  destruct (List.find (Account.has_id account_id) (Account.accounts w)); [|reflexivity].
  unfold bind at 1.
  pose proof (request_get_json_world request w) as Hw.
  destruct (request_get_json request w) as [[data|code description|e] w'];
    simpl in Hw; subst w'; [|reflexivity|reflexivity].
  unfold bind.
  pose proof (deserialize_world Account.new data w) as Hw.
  destruct (Account.deserialize Account.new data w) as [[account|code description|e] w']
    eqn:Hd; simpl in Hw; subst w'; [|reflexivity|reflexivity].
  unfold Account.update. rewrite (deserialize_id _ _ _ _ _ Hd). reflexivity.
Qed.

(** A PUT never writes to the accounts relation. *)
Lemma update_account_world (account_id : Z) (request : Request) (w : World) :
  snd (update_account account_id request w) = w.
Proof.
  rewrite update_account_cases.
  destruct (List.find (Account.has_id account_id) (Account.accounts w)); [|reflexivity].
  destruct (request_get_json request w) as [[data|c d|e] w']; [|reflexivity|reflexivity].
  destruct (Account.deserialize Account.new data w) as [[a|c d|e] w''];
    reflexivity.
Qed.

(** C4: the content-type check guards Create and not Update.  A request
    whose header is not [application/json] is aborted by the check of POST
    [/accounts], with 415 and the check's message.  PUT [/accounts/{id}]
    never aborts with the check's 415, whatever the header; and where Flask
    takes the media type of the request for JSON, the PUT goes on as it
    does with the exact header. *)
Theorem content_type_check_on_create_only
        (account_id : Z) (request : Request) (w : World) :
  content_type request <> Some "application/json" ->
  create_accounts request w =
    (Abort status.HTTP_415_UNSUPPORTED_MEDIA_TYPE
           "Content-Type must be application/json", w) /\
  status_code (fst (serve (create_accounts request) w))
    = status.HTTP_415_UNSUPPORTED_MEDIA_TYPE /\
  (forall media_type,
     fst (update_account account_id request w)
     <> Abort status.HTTP_415_UNSUPPORTED_MEDIA_TYPE
              ("Content-Type must be " ++ media_type)) /\
  (is_json (content_type request) = true ->
   update_account account_id request w
   = update_account account_id
       (mkRequest (Some "application/json") (get_json request)) w).
Proof.
  intros Hc.
  assert (create_accounts request w =
            (Abort status.HTTP_415_UNSUPPORTED_MEDIA_TYPE
                   "Content-Type must be application/json", w)) as Hpost.
  { unfold create_accounts, bind. rewrite check_content_type_spec.
    destruct (truthy (content_type request)
              && str_eq (content_type request) "application/json") eqn:Hacc.
    - apply accepted_header in Hacc; [contradiction | discriminate].
    - reflexivity. }
  split; [exact Hpost|]. split; [unfold serve; rewrite Hpost; reflexivity|]. split.
  - intros media_type. rewrite update_account_cases.
    destruct (List.find (Account.has_id account_id) (Account.accounts w));
      [|discriminate].
    rewrite request_get_json_cases.
    assert (forall data,
              fst (match Account.deserialize Account.new data w with
                   | (Return account, _) =>
                       (Return (make_response (Json (Account.serialize account))
                                              status.HTTP_200_OK []), w)
                   | (Abort code description, _) => (Abort code description, w)
                   | (Raise e, _) => (Raise e, w)
                   end)
              <> Abort status.HTTP_415_UNSUPPORTED_MEDIA_TYPE
                       ("Content-Type must be " ++ media_type)) as Hdeserialize.
    { intros data. destruct (valid_payload data) eqn:Hv.
      - rewrite deserialize_valid by assumption. discriminate.
      - destruct (deserialize_invalid Account.new data w Hv) as [k ->].
        discriminate. }
    destruct (is_json (content_type request)); [apply Hdeserialize|].
    destruct (Account.non_json w); [apply Hdeserialize| |];
      simpl; intros H; inversion H.
  - intros Hjson. rewrite !update_account_cases, !request_get_json_cases.
    rewrite Hjson. reflexivity.
Qed.

Lemma content_type_check_on_create_only_witness :
  Some "application/json; charset=utf-8" <> Some "application/json" /\
  is_json (Some "application/json; charset=utf-8") = true /\
  status_code
    (fst (serve (create_accounts
                   (mkRequest (Some "application/json; charset=utf-8") ann_moved))
                ann_world)) = 415 /\
  status_code
    (fst (serve (update_account 1
                   (mkRequest (Some "application/json; charset=utf-8") ann_moved))
                ann_world)) = 200.
Proof.
  split; [discriminate|]. split; [reflexivity|].
  pose proof (content_type_check_on_create_only
                1 (mkRequest (Some "application/json; charset=utf-8") ann_moved)
                ann_world ltac:(discriminate)) as (_ & Hpost & _ & Hput).
  split; [exact Hpost|].
  unfold serve. rewrite (Hput eq_refl). reflexivity.
Defined.

(** C5: a PUT on an id with no stored record is answered 404 and leaves the
    world as it was, whatever the body: the handler decides it before the
    body is deserialized and before any write. *)
Theorem update_account_not_found (account_id : Z) (request : Request) (w : World) :
  ~ stored account_id w ->
  update_account account_id request w
    = (Abort status.HTTP_404_NOT_FOUND (not_found account_id), w) /\
  serve (update_account account_id request) w
    = (error_response status.HTTP_404_NOT_FOUND (not_found account_id), w).
Proof.
  intros Habsent.
  assert (List.find (Account.has_id account_id) (Account.accounts w) = None) as Hf.
  { apply find_absent. intros a Ha Hid. apply Habsent. exists a. auto. }
  unfold serve. rewrite update_account_cases, Hf. split; reflexivity.
Qed.

Lemma update_account_not_found_witness :
  ~ stored 0 ann_world /\
  serve (update_account 0 (post JNull)) ann_world
    = (error_response 404 "Account id [0] could not be found", ann_world).
Proof.
  assert (~ stored 0 ann_world) as Habsent.
  { intros (a & Ha & Hid). vm_compute in Ha.
    destruct Ha as [<-|[]]. discriminate. }
  split; [exact Habsent|].
  exact (proj2 (update_account_not_found 0 (post JNull) ann_world Habsent)).
Defined.

(* ------------------------------------------------------------------ *)
(** * Create *)

(** A POST with the JSON media type and a valid payload: the entity it
    stores, the response it returns and the world it leaves. *)
Lemma create_accounts_created (request : Request) (w : World) :
  content_type request = Some "application/json" ->
  valid_payload (get_json request) = true ->
  exists account,
    create_accounts request w =
      (Return (make_response (jsonify (Account.serialize account))
                             status.HTTP_201_CREATED [("Location", "/")]),
       Account.mkWorld (Account.accounts w ++ [account])%list
                       (Account.next_id w + 1) (Account.today w) (Account.non_json w)) /\
    Account.id account = Some (Account.next_id w) /\
    Account.name account = payload_get "name" (get_json request) /\
    Account.email account = payload_get "email" (get_json request) /\
    Account.address account = payload_get "address" (get_json request) /\
    Account.phone_number account = payload_get "phone_number" (get_json request).
Proof.
  intros Hc Hv. unfold create_accounts, bind.
  rewrite check_content_type_spec, Hc. simpl (truthy _ && _). cbv beta iota zeta.
  rewrite (request_get_json_exact request w Hc). cbv beta iota zeta.
  rewrite deserialize_valid by assumption.
  unfold Account.create, ret. eexists. split; [reflexivity|].
  simpl. repeat split.
Qed.

(** A POST with the JSON media type and any other payload. *)
Lemma create_accounts_invalid (request : Request) (w : World) :
  content_type request = Some "application/json" ->
  valid_payload (get_json request) = false ->
  exists attribute,
    create_accounts request w = (Raise (ValidationError attribute), w).
Proof.
  intros Hc Hv. unfold create_accounts, bind.
  rewrite check_content_type_spec, Hc. simpl (truthy _ && _). cbv beta iota zeta.
  rewrite (request_get_json_exact request w Hc). cbv beta iota zeta.
  destruct (deserialize_invalid Account.new (get_json request) w Hv) as [k ->].
  exists k. reflexivity.
Qed.

(** A POST answered 201 has stored exactly one more record. *)
Lemma created_one_more (request : Request) (w w' : World) (response : Response) :
  serve (create_accounts request) w = (response, w') ->
  status_code response = status.HTTP_201_CREATED ->
  exists account,
    Account.accounts w' = (Account.accounts w ++ [account])%list.
Proof.
  unfold serve. intros Hs H201.
  destruct (truthy (content_type request)
            && str_eq (content_type request) "application/json") eqn:Hacc.
  - apply accepted_header in Hacc; [|discriminate].
    destruct (valid_payload (get_json request)) eqn:Hv.
    + destruct (create_accounts_created request w Hacc Hv) as (a & Ha & _).
      rewrite Ha in Hs. inversion Hs; subst. exists a. reflexivity.
    + destruct (create_accounts_invalid request w Hacc Hv) as (k & Hk).
      rewrite Hk in Hs. inversion Hs; subst. discriminate.
  - unfold create_accounts, bind in Hs.
    rewrite check_content_type_spec, Hacc in Hs.
    inversion Hs; subst. discriminate.
Qed.

Lemma posted_length (w0 w : World) (n : nat) :
  posted w0 n w ->
  length (Account.accounts w) = (length (Account.accounts w0) + n)%nat.
Proof.
  induction 1 as [w|w n w' request response w'' _ IH Hs H201].
  - now rewrite Nat.add_0_r.
  - destruct (created_one_more request w' w'' response Hs H201) as [a ->].
    rewrite length_app, IH. simpl. lia.
Qed.

(** C7: a POST with the JSON media type whose body lacks [name], [email] or
    [address] (or is no mapping at all) is answered 400, and no account is
    created. *)
Theorem create_accounts_bad_request (request : Request) (w : World) :
  content_type request = Some "application/json" ->
  has_key "name" (get_json request) = false \/
  has_key "email" (get_json request) = false \/
  has_key "address" (get_json request) = false ->
  exists attribute,
    create_accounts request w = (Raise (ValidationError attribute), w) /\
    serve (create_accounts request) w =
      (error_response status.HTTP_400_BAD_REQUEST
                      ("Invalid Account: missing " ++ attribute), w).
Proof.
  intros Hc Hmissing.
  assert (valid_payload (get_json request) = false) as Hv.
  { unfold valid_payload. rewrite !andb_false_iff. tauto. }
  destruct (create_accounts_invalid request w Hc Hv) as (k & Hk).
  exists k. split; [assumption|]. unfold serve. rewrite Hk. reflexivity.
Qed.

Lemma create_accounts_bad_request_witness :
  has_key "email" (JObj [("name", JStr "not enough data")]) = false /\
  exists attribute,
    serve (create_accounts (post (JObj [("name", JStr "not enough data")])))
          empty_world
    = (error_response 400 ("Invalid Account: missing " ++ attribute), empty_world).
Proof.
  split; [reflexivity|].
  destruct (create_accounts_bad_request
              (post (JObj [("name", JStr "not enough data")])) empty_world
              eq_refl (or_intror (or_introl eq_refl))) as (k & _ & Hk).
  exists k. exact Hk.
Defined.

(* ------------------------------------------------------------------ *)
(** * List *)

(** Listing never fails and never writes: it answers 200 with the stored
    records, serialized, in order. *)
Lemma list_all_accounts_ok (request : Request) (w : World) :
  serve (list_all_accounts request) w =
    (make_response (jsonify (JArr (map Account.serialize (Account.accounts w))))
                   status.HTTP_200_OK [], w).
Proof.
  unfold serve, list_all_accounts, bind, Account.all, gets, ret.
  destruct (Account.accounts w) as [|a l] eqn:Hl; [reflexivity|].
  rewrite fold_serialize. reflexivity.
Qed.

(** C8: after N accounts were created in a world that held none, GET
    [/accounts] answers 200 with a JSON array of exactly N entries, the
    serialized records; in the world that holds none it answers 200 with the
    empty array. *)
Theorem list_all_accounts_counts (w0 w : World) (n : nat) (request : Request) :
  Account.accounts w0 = [] ->
  posted w0 n w ->
  serve (list_all_accounts request) w0 =
    (make_response (jsonify (JArr [])) status.HTTP_200_OK [], w0) /\
  exists items,
    serve (list_all_accounts request) w =
      (make_response (jsonify (JArr items)) status.HTTP_200_OK [], w) /\
    items = map Account.serialize (Account.accounts w) /\
    length items = n.
Proof.
  intros Hempty Hposted. split.
  - rewrite list_all_accounts_ok, Hempty. reflexivity.
  - exists (map Account.serialize (Account.accounts w)).
    split; [apply list_all_accounts_ok|]. split; [reflexivity|].
    rewrite length_map, (posted_length w0 w n Hposted), Hempty. reflexivity.
Qed.

Lemma list_all_accounts_counts_witness :
  exists w,
    posted empty_world 2 w /\
    exists items,
      serve (list_all_accounts (mkRequest None JNull)) w =
        (make_response (jsonify (JArr items)) status.HTTP_200_OK [], w) /\
      length items = 2%nat.
Proof.
  assert (posted empty_world 2
            (snd (create_accounts (post ann_moved) ann_world))) as Hposted.
  { apply (posted_more empty_world 1 ann_world (post ann_moved)
             (fst (serve (create_accounts (post ann_moved)) ann_world))
             (snd (create_accounts (post ann_moved) ann_world))).
    - apply (posted_more empty_world 0 empty_world (post ann)
               (fst (serve (create_accounts (post ann)) empty_world))
               ann_world).
      + apply posted_none.
      + reflexivity.
      + reflexivity.
    - reflexivity.
    - reflexivity. }
  exists (snd (create_accounts (post ann_moved) ann_world)).
  split; [exact Hposted|].
  destruct (list_all_accounts_counts empty_world _ 2 (mkRequest None JNull)
              eq_refl Hposted) as (_ & items & Hlist & _ & Hlen).
  exists items. split; assumption.
Defined.

(* ------------------------------------------------------------------ *)
(** * Delete and Read *)

Lemma stored_find (account_id : Z) (w : World) :
  ~ stored account_id w ->
  List.find (Account.has_id account_id) (Account.accounts w) = None.
Proof.
  intros Habsent. apply find_absent. intros a Ha Hid.
  apply Habsent. exists a. auto.
Qed.

(** C6: DELETE on a stored id is answered 204 with an empty body, after
    which GET on that id is answered 404; DELETE on an id that is not stored
    is answered 404 and changes nothing. *)
Theorem delete_account_then_read
        (account_id : Z) (request request' : Request) (w : World) :
  (stored account_id w ->
   exists w',
     serve (delete_account account_id request) w =
       (make_response (Text "") status.HTTP_204_NO_CONTENT [], w') /\
     ~ stored account_id w' /\
     serve (read_an_account account_id request') w' =
       (error_response status.HTTP_404_NOT_FOUND (not_found account_id), w')) /\
  (~ stored account_id w ->
   serve (delete_account account_id request) w =
     (error_response status.HTTP_404_NOT_FOUND (not_found account_id), w)).
Proof.
  split.
  - intros Hstored.
    destruct (find_stored account_id (Account.accounts w) Hstored) as (a & Hf & Hid).
    unfold serve, delete_account, bind, Account.find, gets. rewrite Hf.
    unfold Account.delete. rewrite Hid.
    eexists. split; [reflexivity|].
    assert (List.find (Account.has_id account_id)
              (filter (fun a => negb (Account.has_id account_id a))
                      (Account.accounts w)) = None) as Hgone
        by apply find_after_delete.
    split.
    + intros (b & Hb & Hbid). simpl in Hb.
      apply (proj1 (find_absent _ _) Hgone b Hb Hbid).
    + unfold read_an_account, bind, Account.find, gets. simpl.
      rewrite Hgone. reflexivity.
  - intros Habsent.
    unfold serve, delete_account, bind, Account.find, gets.
    rewrite (stored_find account_id w Habsent). reflexivity.
Qed.

Lemma delete_account_then_read_witness :
  stored 1 ann_world /\ ~ stored 0 ann_world /\
  (exists w',
     serve (delete_account 1 (mkRequest None JNull)) ann_world =
       (make_response (Text "") 204 [], w') /\
     serve (read_an_account 1 (mkRequest None JNull)) w' =
       (error_response 404 "Account id [1] could not be found", w')) /\
  serve (delete_account 0 (mkRequest None JNull)) ann_world =
    (error_response 404 "Account id [0] could not be found", ann_world).
Proof.
  assert (stored 1 ann_world) as Hstored.
  { eexists. split; [left; reflexivity | reflexivity]. }
  assert (~ stored 0 ann_world) as Habsent.
  { intros (a & Ha & Hid). vm_compute in Ha.
    destruct Ha as [<-|[]]. discriminate. }
  split; [exact Hstored|]. split; [exact Habsent|]. split.
  - destruct (proj1 (delete_account_then_read 1 (mkRequest None JNull)
                       (mkRequest None JNull) ann_world) Hstored)
      as (w' & Hdelete & _ & Hread).
    exists w'. split; assumption.
  - exact (proj2 (delete_account_then_read 0 (mkRequest None JNull)
                    (mkRequest None JNull) ann_world) Habsent).
Defined.

(* ------------------------------------------------------------------ *)
(** * Round trip *)

(** C9: for a valid creation payload, deserializing the serialization of the
    created entity succeeds and gives back [name], [email], [address] and
    [phone_number] as the entity holds them, which is as the payload gave
    them. *)
Theorem create_serialize_deserialize (request : Request) (w : World) :
  content_type request = Some "application/json" ->
  valid_payload (get_json request) = true ->
  exists created w' back,
    create_accounts request w =
      (Return (make_response (jsonify (Account.serialize created))
                             status.HTTP_201_CREATED [("Location", "/")]), w') /\
    Account.deserialize Account.new (Account.serialize created) w'
      = (Return back, w') /\
    (Account.name back = Account.name created /\
     Account.email back = Account.email created /\
     Account.address back = Account.address created /\
     Account.phone_number back = Account.phone_number created) /\
    (Account.name back = payload_get "name" (get_json request) /\
     Account.email back = payload_get "email" (get_json request) /\
     Account.address back = payload_get "address" (get_json request) /\
     Account.phone_number back = payload_get "phone_number" (get_json request)).
Proof.
  intros Hc Hv.
  destruct (create_accounts_created request w Hc Hv)
    as (a & Hcreate & _ & Hname & Hemail & Haddress & Hphone).
  exists a. eexists. eexists. split; [exact Hcreate|].
  split; [apply deserialize_valid; reflexivity|].
  simpl. rewrite <- Hname, <- Hemail, <- Haddress, <- Hphone. repeat split.
Qed.

Lemma create_serialize_deserialize_witness :
  valid_payload ann = true /\
  exists created w' back,
    Account.deserialize Account.new (Account.serialize created) w'
      = (Return back, w') /\
    Account.name back = JStr "Ann" /\
    Account.email back = JStr "a@x.com" /\
    Account.address back = JStr "1 Main St" /\
    Account.phone_number back = JNull.
Proof.
  split; [reflexivity|].
  destruct (create_serialize_deserialize (post ann) empty_world eq_refl eq_refl)
    as (created & w' & back & _ & Hback & _ & Hname & Hemail & Haddress & Hphone).
  exists created, w', back. repeat split; assumption.
Defined.

(* ------------------------------------------------------------------ *)
(** * Where the handlers fall short of the specification *)

(** A PUT on a stored id with a JSON media type and a valid body: the
    response is built from the body alone, on an entity whose [id] was never
    set, and the world is the one the request found. *)
Lemma update_account_ok (account_id : Z) (request : Request) (w : World) :
  stored account_id w ->
  is_json (content_type request) = true ->
  valid_payload (get_json request) = true ->
  exists account,
    update_account account_id request w =
      (Return (make_response (Json (Account.serialize account))
                             status.HTTP_200_OK []), w) /\
    Account.id account = None /\
    Account.email account = payload_get "email" (get_json request).
Proof.
  intros Hstored Hjson Hv.
  destruct (find_stored account_id (Account.accounts w) Hstored) as (a & Hf & _).
  rewrite update_account_cases, Hf, request_get_json_cases, Hjson.
  rewrite deserialize_valid by assumption.
  eexists. split; [reflexivity|]. split; reflexivity.
Qed.

(** The id of the path only decides between 404 and the rest: on any two
    stored ids the same request has the same outcome. *)
Lemma update_account_any_stored_id (i j : Z) (request : Request) (w : World) :
  stored i w -> stored j w ->
  update_account i request w = update_account j request w.
Proof.
  intros Hi Hj.
  destruct (find_stored i (Account.accounts w) Hi) as (a & Ha & _).
  destruct (find_stored j (Account.accounts w) Hj) as (b & Hb & _).
  rewrite !update_account_cases, Ha, Hb. reflexivity.
Qed.

(** C1: PUT [/accounts/1] for Ann's stored account, with her email changed.
    The answer is 200 and shows the new email, but its [id] is null, not the
    1 of the path, and the stored record is untouched: the world is the same
    and a GET of the account still shows the old email. *)
Theorem update_account_leaves_record :
  serve (update_account 1 (post ann_moved)) ann_world =
    (make_response
       (Json (JObj [ ("id", JNull); ("name", JStr "Ann");
                     ("email", JStr "b@x.com"); ("address", JStr "1 Main St");
                     ("phone_number", JNull);
                     ("date_joined", JStr "2024-05-17") ]))
       200 [],
     ann_world) /\
  serve (read_an_account 1 (mkRequest None JNull)) ann_world =
    (make_response
       (Json (JObj [ ("id", JNum 1); ("name", JStr "Ann");
                     ("email", JStr "a@x.com"); ("address", JStr "1 Main St");
                     ("phone_number", JNull);
                     ("date_joined", JStr "2024-05-17") ]))
       200 [],
     ann_world).
Proof.
  split; reflexivity.
Qed.

(** C2: POST [/accounts] for Ann in the empty world.  The answer is 201 with
    the serialized entity and a [Location] header, but the header is the
    root path, not the URL of the account that was created. *)
Theorem create_accounts_location_is_root :
  serve (create_accounts (post ann)) empty_world =
    (make_response
       (jsonify (JObj [ ("id", JNum 1); ("name", JStr "Ann");
                        ("email", JStr "a@x.com"); ("address", JStr "1 Main St");
                        ("phone_number", JNull);
                        ("date_joined", JStr "2024-05-17") ]))
       201 [("Location", "/")],
     ann_world) /\
  account_url 1 = "/accounts/1" /\
  (forall i, headers (fst (serve (create_accounts (post ann)) empty_world))
             <> [("Location", account_url i)]).
Proof.
  split; [reflexivity|]. split; [reflexivity|].
  intros i H. unfold account_url in H. simpl in H. discriminate.
Qed.

(* ------------------------------------------------------------------ *)
(** * Read, Update and Delete, case by case *)

Lemma find_has_id (i : Z) (l : list Account.t) (a : Account.t) :
  List.find (Account.has_id i) l = Some a ->
  In a l /\ Account.id a = Some i.
Proof.
  intros Hf. apply List.find_some in Hf. destruct Hf as [Hin Hid].
  split; [assumption|]. unfold Account.has_id in Hid.
  destruct (Account.id a) as [j|]; [|discriminate].
  apply Z.eqb_eq in Hid. congruence.
Qed.

Lemma read_an_account_cases (acc_id : Z) (request : Request) (w : World) :
  serve (read_an_account acc_id request) w =
    match List.find (Account.has_id acc_id) (Account.accounts w) with
    | Some result =>
        (make_response (Json (Account.serialize result)) status.HTTP_200_OK [], w)
    | None => (error_response status.HTTP_404_NOT_FOUND (not_found acc_id), w)
    end.
Proof.
  unfold serve, read_an_account, bind, Account.find, gets.
  destruct (List.find (Account.has_id acc_id) (Account.accounts w)); reflexivity.
Qed.

Lemma delete_account_cases (account_id : Z) (request : Request) (w : World) :
  serve (delete_account account_id request) w =
    match List.find (Account.has_id account_id) (Account.accounts w) with
    | Some _ =>
        (make_response (Text "") status.HTTP_204_NO_CONTENT [],
         Account.mkWorld
           (filter (fun a => negb (Account.has_id account_id a)) (Account.accounts w))
           (Account.next_id w) (Account.today w) (Account.non_json w))
    | None => (error_response status.HTTP_404_NOT_FOUND (not_found account_id), w)
    end.
Proof.
  unfold serve, delete_account, bind, Account.find, gets.
  destruct (List.find (Account.has_id account_id) (Account.accounts w)) as [a|] eqn:Hf;
    [|reflexivity].
  apply find_has_id in Hf. destruct Hf as [_ Hid].
  unfold Account.delete. rewrite Hid. reflexivity.
Qed.

(** Removing the records of one id does not disturb the lookup of another. *)
Lemma find_after_delete_other (i j : Z) (l : list Account.t) :
  i <> j ->
  List.find (Account.has_id j) (filter (fun a => negb (Account.has_id i a)) l)
  = List.find (Account.has_id j) l.
Proof.
  intros Hij. induction l as [|b l IH]; simpl; [reflexivity|].
  destruct (Account.has_id i b) eqn:Hi; simpl.
  - assert (Account.has_id j b = false) as Hj.
    { unfold Account.has_id in *. destruct (Account.id b) as [k|]; [|reflexivity].
      apply Z.eqb_eq in Hi. subst k. apply Z.eqb_neq. congruence. }
    rewrite Hj. assumption.
  - destruct (Account.has_id j b); [reflexivity | assumption].
Qed.

(** X1: GET on a stored id is answered 200 with the serialization of a
    stored record that carries this id, and the world is left as it was. *)
Theorem read_an_account_found (acc_id : Z) (request : Request) (w : World) :
  stored acc_id w ->
  exists result,
    In result (Account.accounts w) /\
    Account.id result = Some acc_id /\
    serve (read_an_account acc_id request) w =
      (make_response (Json (Account.serialize result)) status.HTTP_200_OK [], w) /\
    payload_get "id" (Account.serialize result) = JNum acc_id.
Proof.
  intros Hstored.
  destruct (find_stored acc_id (Account.accounts w) Hstored) as (a & Hf & Hid).
  exists a. rewrite read_an_account_cases, Hf.
  destruct (find_has_id _ _ _ Hf) as [Hin _].
  repeat split; try assumption. simpl. rewrite Hid. reflexivity.
Qed.

Lemma read_an_account_found_witness :
  stored 1 ann_world /\
  exists result,
    Account.email result = JStr "a@x.com" /\
    serve (read_an_account 1 (mkRequest None JNull)) ann_world =
      (make_response (Json (Account.serialize result)) 200 [], ann_world).
Proof.
  assert (stored 1 ann_world) as Hstored.
  { eexists. split; [left; reflexivity | reflexivity]. }
  split; [exact Hstored|].
  destruct (read_an_account_found 1 (mkRequest None JNull) ann_world Hstored)
    as (a & Hin & _ & Hread & _).
  exists a. split; [|exact Hread].
  vm_compute in Hin. destruct Hin as [<-|[]]. reflexivity.
Defined.

(** X2: GET on an id that is not stored is answered 404 with a message that
    names the id, however many other accounts there are, and the world is
    left as it was. *)
Theorem read_an_account_not_found (acc_id : Z) (request : Request) (w : World) :
  ~ stored acc_id w ->
  serve (read_an_account acc_id request) w =
    (error_response status.HTTP_404_NOT_FOUND
       ("Account id [" ++ str_of_int acc_id ++ "] could not be found"), w).
Proof.
  intros Habsent.
  rewrite read_an_account_cases, (stored_find acc_id w Habsent). reflexivity.
Qed.

Lemma read_an_account_not_found_witness :
  ~ stored 0 ann_world /\
  serve (read_an_account 0 (mkRequest (Some "application/json") JNull)) ann_world =
    (error_response 404 "Account id [0] could not be found", ann_world).
Proof.
  assert (~ stored 0 ann_world) as Habsent.
  { intros (a & Ha & Hid). vm_compute in Ha.
    destruct Ha as [<-|[]]. discriminate. }
  split; [exact Habsent|].
  exact (read_an_account_not_found 0 (mkRequest (Some "application/json") JNull)
           ann_world Habsent).
Defined.

(** X3: PUT on a stored id, with a media type that Flask takes for JSON and
    a body that lacks [name], [email] or [address] (or is no mapping), is
    answered 400, and the world is left as it was. *)
Theorem update_account_bad_request (account_id : Z) (request : Request) (w : World) :
  stored account_id w ->
  is_json (content_type request) = true ->
  has_key "name" (get_json request) = false \/
  has_key "email" (get_json request) = false \/
  has_key "address" (get_json request) = false ->
  exists attribute,
    serve (update_account account_id request) w =
      (error_response status.HTTP_400_BAD_REQUEST
                      ("Invalid Account: missing " ++ attribute), w).
Proof.
  intros Hstored Hjson Hmissing.
  assert (valid_payload (get_json request) = false) as Hv.
  { unfold valid_payload. rewrite !andb_false_iff. tauto. }
  destruct (find_stored account_id (Account.accounts w) Hstored) as (a & Hf & _).
  destruct (deserialize_invalid Account.new (get_json request) w Hv) as [k Hk].
  exists k. unfold serve.
  rewrite update_account_cases, Hf, request_get_json_cases, Hjson, Hk. reflexivity.
Qed.

Lemma update_account_bad_request_witness :
  stored 1 ann_world /\
  is_json (content_type (post (JObj [("name", JStr "Ann")]))) = true /\
  has_key "email" (JObj [("name", JStr "Ann")]) = false /\
  exists attribute,
    serve (update_account 1 (post (JObj [("name", JStr "Ann")]))) ann_world =
      (error_response 400 ("Invalid Account: missing " ++ attribute), ann_world).
Proof.
  assert (stored 1 ann_world) as Hstored.
  { eexists. split; [left; reflexivity | reflexivity]. }
  split; [exact Hstored|]. split; [reflexivity|]. split; [reflexivity|].
  exact (update_account_bad_request 1 (post (JObj [("name", JStr "Ann")]))
           ann_world Hstored eq_refl (or_intror (or_introl eq_refl))).
Defined.

(** X4: a DELETE of one id, whatever its answer, does not change what a GET
    of any other id returns. *)
Theorem delete_account_keeps_others
        (account_id other : Z) (request request' : Request) (w : World) :
  account_id <> other ->
  fst (serve (read_an_account other request')
             (snd (serve (delete_account account_id request) w)))
  = fst (serve (read_an_account other request') w).
Proof.
  intros Hneq. rewrite delete_account_cases.
  destruct (List.find (Account.has_id account_id) (Account.accounts w));
    [|reflexivity].
  rewrite !read_an_account_cases. simpl.
  rewrite (find_after_delete_other account_id other _ Hneq).
  destruct (List.find (Account.has_id other) (Account.accounts w)); reflexivity.
Qed.

Lemma delete_account_keeps_others_witness :
  2 <> 1 /\
  fst (serve (read_an_account 1 (mkRequest None JNull))
             (snd (serve (delete_account 2 (mkRequest None JNull))
                         (snd (create_accounts (post ann_moved) ann_world)))))
  = fst (serve (read_an_account 1 (mkRequest None JNull)) ann_world).
Proof.
  split; [discriminate|].
  rewrite (delete_account_keeps_others 2 1 (mkRequest None JNull)
             (mkRequest None JNull)
             (snd (create_accounts (post ann_moved) ann_world))
             ltac:(discriminate)).
  reflexivity.
Defined.

(** X5: a second DELETE of the same id is always answered 404 and changes
    nothing, whether the first one removed a record or found none. *)
Theorem delete_account_twice (account_id : Z) (request request' : Request) (w : World) :
  serve (delete_account account_id request')
        (snd (serve (delete_account account_id request) w))
  = (error_response status.HTTP_404_NOT_FOUND (not_found account_id),
     snd (serve (delete_account account_id request) w)).
Proof.
  rewrite (delete_account_cases account_id request w).
  destruct (List.find (Account.has_id account_id) (Account.accounts w)) eqn:Hf.
  - rewrite delete_account_cases. simpl. rewrite find_after_delete. reflexivity.
  - rewrite delete_account_cases. simpl. rewrite Hf. reflexivity.
Qed.

(* ------------------------------------------------------------------ *)
(** * Every request, through the URL map *)

Lemma snd_serve (handler : Handler) (w : World) :
  snd (serve handler w) = snd (handler w).
Proof. unfold serve. destruct (handler w). reflexivity. Qed.

(** What a POST to [/accounts] does to the world, by its status. *)
Lemma create_accounts_effect (request : Request) (w : World) :
  (snd (serve (create_accounts request) w) = w /\
   (status_code (fst (serve (create_accounts request) w)) = 400 \/
    status_code (fst (serve (create_accounts request) w)) = 415)) \/
  (status_code (fst (serve (create_accounts request) w)) = 201 /\
   exists account,
     Account.id account = Some (Account.next_id w) /\
     snd (serve (create_accounts request) w) =
       Account.mkWorld (Account.accounts w ++ [account])%list
                       (Account.next_id w + 1) (Account.today w) (Account.non_json w)).
Proof.
  unfold serve.
  destruct (truthy (content_type request)
            && str_eq (content_type request) "application/json") eqn:Hacc.
  - apply accepted_header in Hacc; [|discriminate].
    destruct (valid_payload (get_json request)) eqn:Hv.
    + destruct (create_accounts_created request w Hacc Hv) as (a & Ha & Hid & _).
      rewrite Ha. right. split; [reflexivity|]. exists a. split; [assumption|reflexivity].
    + destruct (create_accounts_invalid request w Hacc Hv) as (k & Hk).
      rewrite Hk. left. split; [reflexivity|]. left. reflexivity.
  - unfold create_accounts, bind. rewrite check_content_type_spec, Hacc.
    left. split; [reflexivity|]. right. reflexivity.
Qed.

Lemma update_account_status (account_id : Z) (request : Request) (w : World) :
  In (status_code (fst (serve (update_account account_id request) w)))
     [200; 400; 404; 415].
Proof.
  assert (forall data,
            In (status_code
                  (fst (serve (fun _ =>
                          match Account.deserialize Account.new data w with
                          | (Return account, _) =>
                              (Return (make_response (Json (Account.serialize account))
                                                     status.HTTP_200_OK []), w)
                          | (Abort code description, _) => (Abort code description, w)
                          | (Raise e, _) => (Raise e, w)
                          end) w)))
               [200; 400; 404; 415]) as Hdeserialize.
  { intros data. unfold serve. destruct (valid_payload data) eqn:Hv.
    - rewrite deserialize_valid by assumption. simpl. auto.
    - destruct (deserialize_invalid Account.new data w Hv) as [k ->].
      simpl. auto. }
  unfold serve in *. rewrite update_account_cases.
  destruct (List.find (Account.has_id account_id) (Account.accounts w));
    [|simpl; auto].
  rewrite request_get_json_cases.
  destruct (is_json (content_type request)); [apply Hdeserialize|].
  destruct (Account.non_json w); [apply Hdeserialize | simpl; auto | simpl; auto 6].
Qed.

(** The view a request reaches, or the routing error it gets. *)
Ltac route :=
  unfold dispatch, url_map; cbn [List.find Method_eqb fst].

Lemma serve_abort (code : Z) (description : string) (w : World) :
  serve (abort code description) w = (error_response code description, w).
Proof. reflexivity. Qed.

(** What any request does to the world: nothing, or one record appended by
    a POST answered 201, or the records of one id removed by a DELETE
    answered 204. *)
Lemma dispatch_effect (method : Method) (path : Path) (request : Request) (w : World) :
  snd (serve (dispatch method path request) w) = w \/
  (method = POST /\ path = Accounts /\
   status_code (fst (serve (dispatch method path request) w)) = 201 /\
   exists account,
     Account.id account = Some (Account.next_id w) /\
     snd (serve (dispatch method path request) w) =
       Account.mkWorld (Account.accounts w ++ [account])%list
                       (Account.next_id w + 1) (Account.today w) (Account.non_json w)) \/
  (method = DELETE /\
   exists i,
     path = Accounts_id i /\
     status_code (fst (serve (dispatch method path request) w)) = 204 /\
     snd (serve (dispatch method path request) w) =
       Account.mkWorld
         (filter (fun a => negb (Account.has_id (Z.of_N i) a)) (Account.accounts w))
         (Account.next_id w) (Account.today w) (Account.non_json w)).
Proof.
  destruct path as [| | |i|]; destruct method; route;
    try (left; reflexivity).
  - (* GET /accounts *)
    left. rewrite list_all_accounts_ok. reflexivity.
  - (* POST /accounts *)
    destruct (create_accounts_effect request w) as [[Hw _]|[H201 Ha]].
    + left. assumption.
    + right. left. repeat split; assumption.
  - (* GET /accounts/i *)
    left. rewrite read_an_account_cases.
    destruct (List.find _ _); reflexivity.
  - (* PUT /accounts/i *)
    left. rewrite snd_serve. apply update_account_world.
  - (* DELETE /accounts/i *)
    rewrite delete_account_cases.
    destruct (List.find _ _).
    + right. right. split; [reflexivity|]. exists i. repeat split.
    + left. reflexivity.
Qed.

(** X6: a GET never writes: on every path, for every request, the world
    after it is the world before it. *)
Theorem get_is_safe (path : Path) (request : Request) (w : World) :
  snd (serve (dispatch GET path request) w) = w.
Proof.
  destruct (dispatch_effect GET path request w) as [H|[(H & _)|(H & _)]];
    [assumption | discriminate | discriminate].
Qed.

(** X7: whatever the method, the path and the request, the accounts table
    after it is the table before it, or that table with one record appended
    (only for a POST to [/accounts] answered 201), or that table without the
    records of one id (only for a DELETE of [/accounts/<id>] answered 204). *)
Theorem requests_on_the_table
        (method : Method) (path : Path) (request : Request) (w : World) :
  Account.accounts (snd (client method path (get_json request) (content_type request) w))
    = Account.accounts w \/
  (method = POST /\ path = Accounts /\
   status_code (fst (client method path (get_json request) (content_type request) w))
     = status.HTTP_201_CREATED /\
   exists account,
     Account.accounts
       (snd (client method path (get_json request) (content_type request) w))
     = (Account.accounts w ++ [account])%list) \/
  (method = DELETE /\
   status_code (fst (client method path (get_json request) (content_type request) w))
     = status.HTTP_204_NO_CONTENT /\
   exists i,
     path = Accounts_id i /\
     Account.accounts
       (snd (client method path (get_json request) (content_type request) w))
     = filter (fun a => negb (Account.has_id (Z.of_N i) a)) (Account.accounts w)).
Proof.
  unfold client.
  replace (mkRequest (content_type request) (get_json request)) with request
    by (destruct request; reflexivity).
  destruct (dispatch_effect method path request w)
    as [H|[(Hm & Hp & Hs & a & _ & Hw)|(Hm & i & Hp & Hs & Hw)]].
  - left. rewrite H. reflexivity.
  - right. left. repeat split; try assumption. exists a. rewrite Hw. reflexivity.
  - right. right. repeat split; try assumption. exists i.
    split; [assumption|]. rewrite Hw. reflexivity.
Qed.

(* ------------------------------------------------------------------ *)
(** * The table keeps its primary key *)

Lemma well_formed_create (w : World) (account : Account.t) :
  well_formed w ->
  Account.id account = Some (Account.next_id w) ->
  well_formed (Account.mkWorld (Account.accounts w ++ [account])%list
                               (Account.next_id w + 1) (Account.today w) (Account.non_json w)).
Proof.
  intros [Hnodup Hbelow] Hid. split; simpl.
  - rewrite map_app. apply NoDup_app; [assumption | |].
    + simpl. constructor; [intros [] | constructor].
    + intros k Hk [<-|[]]. apply in_map_iff in Hk.
      destruct Hk as (b & Hb & Hin).
      destruct (Hbelow b Hin) as (i & Hi & Hlt).
      rewrite Hid in Hb. rewrite Hi in Hb. inversion Hb. lia.
  - intros a Ha. apply in_app_or in Ha. destruct Ha as [Ha|[<-|[]]].
    + destruct (Hbelow a Ha) as (i & Hi & Hlt). exists i. split; [assumption | lia].
    + exists (Account.next_id w). split; [assumption | lia].
Qed.

(** Removing records leaves the remaining ids distinct. *)
Lemma delete_keeps_key (i : Z) (l : list Account.t) :
  NoDup (map Account.id l) ->
  NoDup (map Account.id (filter (fun a => negb (Account.has_id i a)) l)).
Proof.
  induction l as [|b l IH]; simpl; intros Hkey.
  - constructor.
  - apply NoDup_cons_iff in Hkey. destruct Hkey as [Hnew Hkey].
    destruct (Account.has_id i b); simpl.
    + apply IH. assumption.
    + apply NoDup_cons_iff. split; [|apply IH; assumption].
      intros Hin. apply Hnew.
      apply in_map_iff in Hin. destruct Hin as (c & Hc & Hcin).
      apply filter_In in Hcin. apply in_map_iff. exists c. tauto.
Qed.

Lemma well_formed_delete (w : World) (i : Z) :
  well_formed w ->
  well_formed (Account.mkWorld
                 (filter (fun a => negb (Account.has_id i a)) (Account.accounts w))
                 (Account.next_id w) (Account.today w) (Account.non_json w)).
Proof.
  intros [Hnodup Hbelow]. split; simpl.
  - apply delete_keeps_key. assumption.
  - intros a Ha. apply filter_In in Ha. apply Hbelow. tauto.
Qed.

(** X8: every request keeps the table well formed (each record has an id,
    no two records share one, every id is below the next to be given out),
    and the sequence of ids never steps back. *)
Theorem requests_keep_well_formed
        (method : Method) (path : Path) (request : Request) (w : World) :
  well_formed w ->
  well_formed (snd (serve (dispatch method path request) w)) /\
  Account.next_id w <= Account.next_id (snd (serve (dispatch method path request) w)).
Proof.
  intros Hwf.
  destruct (dispatch_effect method path request w)
    as [H|[(_ & _ & _ & a & Hid & Hw)|(_ & i & _ & _ & Hw)]]; rewrite H || rewrite Hw.
  - split; [assumption | lia].
  - split; [apply well_formed_create; assumption | simpl; lia].
  - split; [apply well_formed_delete; assumption | simpl; lia].
Qed.

Lemma well_formed_empty : well_formed empty_world.
Proof.
  split; simpl; [constructor | intros a []].
Qed.

Lemma well_formed_ann : well_formed ann_world.
Proof.
  split.
  - vm_compute. constructor; [intros [] | constructor].
  - intros a Ha. vm_compute in Ha. destruct Ha as [<-|[]].
    exists 1. split; reflexivity.
Qed.

Lemma requests_keep_well_formed_witness :
  well_formed empty_world /\
  well_formed (snd (serve (dispatch POST Accounts (post ann)) empty_world)) /\
  Account.next_id (snd (serve (dispatch POST Accounts (post ann)) empty_world)) = 2.
Proof.
  split; [exact well_formed_empty|].
  split; [|reflexivity].
  exact (proj1 (requests_keep_well_formed POST Accounts (post ann) empty_world
                  well_formed_empty)).
Defined.

(* ------------------------------------------------------------------ *)
(** * Create, then Read *)

Lemma find_app {A} (p : A -> bool) (l l' : list A) :
  List.find p (l ++ l') =
    match List.find p l with
    | Some x => Some x
    | None => List.find p l'
    end.
Proof.
  induction l as [|b l IH]; simpl; [reflexivity|].
  destruct (p b); [reflexivity | assumption].
Qed.

Lemma well_formed_fresh (w : World) :
  well_formed w -> ~ stored (Account.next_id w) w.
Proof.
  intros [_ Hbelow] (a & Ha & Hid).
  destruct (Hbelow a Ha) as (i & Hi & Hlt). rewrite Hid in Hi. inversion Hi. lia.
Qed.

(** X9: in a well-formed table, a POST with the JSON media type and a valid
    payload is answered 201 with an entity whose id was not stored before,
    and a GET of that id right after returns the very body the POST
    returned, with 200. *)
Theorem create_then_read (request request' : Request) (w : World) :
  well_formed w ->
  content_type request = Some "application/json" ->
  valid_payload (get_json request) = true ->
  exists message w',
    serve (create_accounts request) w =
      (make_response (jsonify message) status.HTTP_201_CREATED
                     [("Location", "/")], w') /\
    payload_get "id" message = JNum (Account.next_id w) /\
    ~ stored (Account.next_id w) w /\
    serve (read_an_account (Account.next_id w) request') w' =
      (make_response (Json message) status.HTTP_200_OK [], w').
Proof.
  intros Hwf Hc Hv.
  destruct (create_accounts_created request w Hc Hv) as (a & Ha & Hid & _).
  pose proof (well_formed_fresh w Hwf) as Hfresh.
  exists (Account.serialize a). eexists.
  unfold serve at 1. rewrite Ha.
  split; [reflexivity|]. split; [simpl; rewrite Hid; reflexivity|].
  split; [assumption|].
  rewrite read_an_account_cases. simpl.
  rewrite find_app, (stored_find _ w Hfresh). simpl.
  unfold Account.has_id. rewrite Hid, Z.eqb_refl. reflexivity.
Qed.

Lemma create_then_read_witness :
  well_formed ann_world /\ valid_payload ann_moved = true /\
  exists message w',
    payload_get "id" message = JNum 2 /\
    payload_get "email" message = JStr "b@x.com" /\
    serve (read_an_account 2 (mkRequest None JNull)) w' =
      (make_response (Json message) 200 [], w').
Proof.
  assert (well_formed ann_world) as Hwf.
  { exact well_formed_ann. }
  split; [exact Hwf|]. split; [reflexivity|].
  destruct (create_then_read (post ann_moved) (mkRequest None JNull) ann_world
              Hwf eq_refl eq_refl) as (message & w' & Hpost & Hid & _ & Hread).
  exists message, w'. split; [exact Hid|]. split; [|exact Hread].
  vm_compute in Hpost. inversion Hpost. reflexivity.
Defined.

(* ------------------------------------------------------------------ *)
(** * Delete, then List *)

Lemma filter_absent (i : Z) (l : list Account.t) :
  (forall a, In a l -> Account.id a <> Some i) ->
  filter (fun a => negb (Account.has_id i a)) l = l.
Proof.
  induction l as [|b l IH]; simpl; intros Habsent; [reflexivity|].
  assert (Account.has_id i b = false) as Hb.
  { unfold Account.has_id. destruct (Account.id b) as [j|] eqn:Hj; [|reflexivity].
    apply Z.eqb_neq. intros ->. apply (Habsent b); auto. }
  rewrite Hb. simpl. f_equal. apply IH. intros a Ha. apply Habsent. auto.
Qed.

(** With a primary key, the records of a stored id are exactly one. *)
Lemma filter_one (i : Z) (l : list Account.t) :
  NoDup (map Account.id l) ->
  (exists a, In a l /\ Account.id a = Some i) ->
  S (length (filter (fun a => negb (Account.has_id i a)) l)) = length l.
Proof.
  induction l as [|b l IH]; simpl; intros Hnd (a & Ha & Hid); [destruct Ha|].
  inversion Hnd as [|? ? Hnotin Hrest]; subst.
  destruct (Account.has_id i b) eqn:Hb; simpl.
  - f_equal. f_equal. apply filter_absent. intros c Hc Hcid.
    apply Hnotin. apply in_map_iff. exists c. split; [|assumption].
    unfold Account.has_id in Hb. destruct (Account.id b) as [j|]; [|discriminate].
    apply Z.eqb_eq in Hb. congruence.
  - f_equal. apply IH; [assumption|].
    destruct Ha as [<-|Ha].
    + unfold Account.has_id in Hb. rewrite Hid, Z.eqb_refl in Hb. discriminate.
    + exists a. auto.
Qed.

(** X10: in a well-formed table, after the DELETE of a stored id the list
    has exactly one entry fewer, and none of its entries carries that id. *)
Theorem delete_then_list (account_id : Z) (request request' : Request) (w : World) :
  well_formed w ->
  stored account_id w ->
  exists items w',
    snd (serve (delete_account account_id request) w) = w' /\
    serve (list_all_accounts request') w' =
      (make_response (jsonify (JArr items)) status.HTTP_200_OK [], w') /\
    S (length items) = length (Account.accounts w) /\
    Forall (fun item => payload_get "id" item <> JNum account_id) items.
Proof.
  intros [Hnodup _] Hstored.
  destruct (find_stored account_id (Account.accounts w) Hstored) as (a & Hf & _).
  rewrite delete_account_cases, Hf. simpl.
  eexists. eexists. split; [reflexivity|].
  split; [apply list_all_accounts_ok|]. simpl. split.
  - rewrite length_map. apply filter_one; assumption.
  - apply Forall_forall. intros item Hitem.
    apply in_map_iff in Hitem. destruct Hitem as (b & <- & Hb).
    apply filter_In in Hb. destruct Hb as [_ Hb].
    unfold Account.has_id in Hb. simpl.
    destruct (Account.id b) as [j|]; [|discriminate].
    intros Heq. inversion Heq; subst. rewrite Z.eqb_refl in Hb. discriminate.
Qed.

Lemma delete_then_list_witness :
  well_formed ann_world /\ stored 1 ann_world /\
  exists w',
    snd (serve (delete_account 1 (mkRequest None JNull)) ann_world) = w' /\
    serve (list_all_accounts (mkRequest None JNull)) w' =
      (make_response (jsonify (JArr [])) 200 [], w').
Proof.
  assert (stored 1 ann_world) as Hstored.
  { eexists. split; [left; reflexivity | reflexivity]. }
  split; [exact well_formed_ann|]. split; [exact Hstored|].
  destruct (delete_then_list 1 (mkRequest None JNull) (mkRequest None JNull)
              ann_world well_formed_ann Hstored)
    as (items & w' & Hdelete & Hlist & Hlen & _).
  exists w'. split; [exact Hdelete|].
  destruct items as [|item items]; [exact Hlist|].
  vm_compute in Hlen. discriminate.
Defined.

(* ------------------------------------------------------------------ *)
(** * The bulk helper of the test suite *)

Lemma posted_first (w w1 w2 : World) (n : nat) (request : Request) (response : Response) :
  serve (create_accounts request) w = (response, w1) ->
  status_code response = status.HTTP_201_CREATED ->
  posted w1 n w2 ->
  posted w (S n) w2.
Proof.
  intros Hs H201 Hposted.
  induction Hposted as [w1|w1 n w' request' response' w'' _ IH Hs' H201'].
  - eapply posted_more; [apply posted_none | exact Hs | exact H201].
  - eapply posted_more; [apply IH; assumption | exact Hs' | exact H201'].
Qed.

(** X11: [_create_accounts] never fails an assertion.  For every list of
    factory accounts, in every world, each POST is answered 201; the
    accounts it returns are the factory's, in order, with the ids the
    service gave them, which are consecutive from the next id of the
    sequence. *)
Theorem create_accounts_in_bulk (factory : list Account.t) (w : World) :
  exists accounts w',
    _create_accounts factory w = (Some accounts, w') /\
    posted w (length factory) w' /\
    map Account.id accounts = ids_from (Account.next_id w) (length factory) /\
    map (set_id None) accounts = map (set_id None) factory.
Proof.
  revert w. induction factory as [|account factory IH]; intros w.
  - exists [], w. repeat split. apply posted_none.
  - assert (valid_payload (get_json (post (Account.serialize account))) = true)
      as Hv by reflexivity.
    destruct (create_accounts_created (post (Account.serialize account)) w
                eq_refl Hv) as (a & Ha & Hid & _).
    destruct (IH (Account.mkWorld (Account.accounts w ++ [a])%list
                                  (Account.next_id w + 1) (Account.today w) (Account.non_json w)))
      as (accounts & w' & Hrest & Hposted & Hids & Hsame).
    exists (set_id (Some (Account.next_id w)) account :: accounts), w'.
    assert (serve (create_accounts (post (Account.serialize account))) w =
              (make_response (jsonify (Account.serialize a))
                             status.HTTP_201_CREATED [("Location", "/")],
               Account.mkWorld (Account.accounts w ++ [a])%list
                               (Account.next_id w + 1) (Account.today w) (Account.non_json w)))
      as Hserve by (unfold serve; rewrite Ha; reflexivity).
    split; [|split; [|split]].
    + cbn [_create_accounts]. unfold client.
      change (dispatch POST Accounts
                (mkRequest (Some "application/json") (Account.serialize account)))
        with (create_accounts (post (Account.serialize account))).
      rewrite Hserve.
      cbn [status_code response_get_json body jsonify Account.serialize].
      change (status.HTTP_201_CREATED =? status.HTTP_201_CREATED) with true.
      cbv iota. rewrite Hid.
      change (dict_get "id" _) with (Some (JNum (Account.next_id w))).
      cbv iota beta zeta. rewrite Hrest. reflexivity.
    + simpl length. eapply posted_first; [exact Hserve | reflexivity | exact Hposted].
    + simpl. f_equal. exact Hids.
    + simpl. f_equal. exact Hsame.
Qed.

(* ------------------------------------------------------------------ *)
(** * Method not allowed *)

(** X12: a request is answered 405 exactly when its path matches a rule and
    its method is not among the methods of that path; no view answers 405
    by itself.  A 405 changes nothing. *)
Theorem method_not_allowed
        (method : Method) (path : Path) (request : Request) (w : World) :
  (status_code (fst (serve (dispatch method path request) w))
     = status.HTTP_405_METHOD_NOT_ALLOWED <->
   path <> Unmatched /\ allowed method path = false) /\
  (status_code (fst (serve (dispatch method path request) w))
     = status.HTTP_405_METHOD_NOT_ALLOWED ->
   snd (serve (dispatch method path request) w) = w).
Proof.
  assert (forall z : Z, In z [200; 400; 404; 415] -> z <> 405) as Hupdate.
  { intros z [<-|[<-|[<-|[<-|[]]]]]; discriminate. }
  destruct path as [| | |i|]; destruct method; unfold allowed; route;
    cbn [existsb Method_eqb fst url_map orb];
    try (split; [split; [intros _; split; [discriminate | reflexivity]
                        | reflexivity]
                | reflexivity]);
    try (split; [split; [discriminate | intros [_ H]; discriminate]
                | discriminate]);
    try (split; [split; [discriminate | intros [H _]; contradiction]
                | discriminate]).
  - (* GET /accounts *)
    rewrite list_all_accounts_ok.
    split; [split; [discriminate | intros [_ H]; discriminate] | discriminate].
  - (* POST /accounts *)
    destruct (create_accounts_effect request w) as [[_ [H|H]]|[H _]];
      (split; [split; [rewrite H; discriminate | intros [_ H']; discriminate]
              | rewrite H; discriminate]).
  - (* GET /accounts/i *)
    rewrite read_an_account_cases. destruct (List.find _ _);
      (split; [split; [discriminate | intros [_ H]; discriminate] | discriminate]).
  - (* PUT /accounts/i *)
    pose proof (Hupdate _ (update_account_status (Z.of_N i) request w)) as H.
    split; [split; [intros H'; contradiction | intros [_ H']; discriminate]
           | intros H'; contradiction].
  - (* DELETE /accounts/i *)
    rewrite delete_account_cases. destruct (List.find _ _);
      (split; [split; [discriminate | intros [_ H]; discriminate] | discriminate]).
Qed.

Lemma method_not_allowed_witness :
  allowed DELETE Accounts = false /\
  client DELETE Accounts JNull None ann_world =
    (error_response 405 "The method is not allowed for the requested URL.",
     ann_world).
Proof.
  split; [reflexivity|].
  assert (Accounts <> Unmatched) as Hmatched by discriminate.
  pose proof (proj2 (method_not_allowed DELETE Accounts (mkRequest None JNull)
                       ann_world)
                (proj2 (proj1 (method_not_allowed DELETE Accounts
                                 (mkRequest None JNull) ann_world))
                       (conj Hmatched eq_refl))) as Hsame.
  vm_compute. reflexivity.
Defined.

(* ------------------------------------------------------------------ *)
(** * Create, then List *)

(** X13: after a POST with the JSON media type and a valid payload, the
    list holds the entries of before and the body the POST returned, and
    nothing else; in which order is not said. *)
Theorem create_then_list (request request' : Request) (w : World) :
  content_type request = Some "application/json" ->
  valid_payload (get_json request) = true ->
  exists message items items' w',
    serve (create_accounts request) w =
      (make_response (jsonify message) status.HTTP_201_CREATED
                     [("Location", "/")], w') /\
    serve (list_all_accounts request') w =
      (make_response (jsonify (JArr items)) status.HTTP_200_OK [], w) /\
    serve (list_all_accounts request') w' =
      (make_response (jsonify (JArr items')) status.HTTP_200_OK [], w') /\
    Permutation items' (message :: items).
Proof.
  intros Hc Hv.
  destruct (create_accounts_created request w Hc Hv) as (a & Ha & _).
  exists (Account.serialize a), (map Account.serialize (Account.accounts w)).
  eexists. eexists. unfold serve at 1. rewrite Ha.
  split; [reflexivity|]. split; [apply list_all_accounts_ok|].
  split; [apply list_all_accounts_ok|].
  simpl. rewrite map_app. simpl.
  apply Permutation_sym, Permutation_cons_append.
Qed.

Lemma create_then_list_witness :
  valid_payload ann_moved = true /\
  exists message items',
    payload_get "email" message = JStr "b@x.com" /\
    In message items' /\ length items' = 2%nat.
Proof.
  split; [reflexivity|].
  destruct (create_then_list (post ann_moved) (mkRequest None JNull) ann_world
              eq_refl eq_refl)
    as (message & items & items' & w' & Hpost & Hbefore & _ & Hperm).
  exists message, items'.
  vm_compute in Hpost. inversion Hpost as [[Hmessage Hw']].
  vm_compute in Hbefore. inversion Hbefore as [Hitems].
  split; [reflexivity|]. split.
  - apply (Permutation_in _ (Permutation_sym Hperm)). left. symmetry. exact Hmessage.
  - rewrite (Permutation_length Hperm), <- Hitems. reflexivity.
Defined.

(* ------------------------------------------------------------------ *)
(** * Update and the media type *)

Example is_json_examples :
  is_json (Some "application/json") = true /\
  is_json (Some "Application/JSON; charset=utf-8") = true /\
  is_json (Some "application/vnd.api+json") = true /\
  is_json (Some "text/html") = false /\
  is_json (Some "") = false /\
  is_json None = false.
Proof. repeat split. Qed.

(** A PUT whose media type Flask does not take for JSON is never answered
    200: the body is not read, and the answer is 404, 400 or 415. *)
Lemma update_account_non_json (account_id : Z) (request : Request) (w : World) :
  is_json (content_type request) = false ->
  In (status_code (fst (serve (update_account account_id request) w)))
     [400; 404; 415].
Proof.
  intros Hjson. unfold serve. rewrite update_account_cases.
  destruct (List.find (Account.has_id account_id) (Account.accounts w));
    [|simpl; auto].
  rewrite request_get_json_cases, Hjson.
  destruct (Account.non_json w); simpl; auto.
Qed.
